(** * TrimNeck: the command-line wrapper [bin/run_trim_neck.py]

    A shallow embedding of the three functions of the script
    ([run_command], [trim_neck], [main]) and of the interpreter's handling of
    [main()]'s outcome, over an abstract operating system.

    The script itself only builds argument lists, spawns two external
    programs, tests exit codes and copies one file.  Everything it asks of
    its environment (spawning a child, creating the scratch directory,
    [os.path.exists], [os.makedirs], [shutil.copyfile]) is an operation of the
    class [OS] below; every such call, and every line written to the
    console, is appended to a log kept in the program state, so that
    properties of a run are properties of its log, exit status and final
    world.  What [parser.parse_args()] makes of the command line is the
    library's business: [main] is the function from line 116 on, given
    the two options, and [script] is the whole process, given what the
    parser did (it returned the options, or printed its text and ended
    the process).  The removal of the scratch directory when the
    interpreter exits is not modelled: the final world is the one [main]
    leaves. *)

From Stdlib Require Import ZArith Ascii String List.
From stdpp Require Import base strings list gmap pretty.

Open Scope Z_scope.

(** ** Python string and path helpers *)

(** A Python object as an f-string shows it.  [trim_neck] puts no type
    on its padding amount: an [int] is shown in decimal; of any other
    object (a [float], a [str]) the script sees only the text that
    [format(v, '')] returns for it. *)
Inductive py_object :=
| py_int (n : Z)
| py_shown (text : string).

(** [f"{v}"] *)
Definition format (v : py_object) : string :=
  match v with
  | py_int n => pretty n
  | py_shown text => text
  end.

(** [" ".join(cmd)] *)
Definition join_args (cmd : list string) : string := String.concat " " cmd.

(** The newline of the two ['command stdout:\n' + ...] literals. *)
Definition nl : string := String (ascii_of_nat 10) EmptyString.

(** [posixpath], the [os.path] of the platforms the script runs on. *)
Module os_path.

Definition is_sep (c : ascii) : bool := Ascii.eqb c "/".

Definition startswith_sep (s : string) : bool :=
  match s with
  | String c _ => is_sep c
  | EmptyString => false
  end.

Fixpoint endswith_sep (s : string) : bool :=
  match s with
  | EmptyString => false
  | String c EmptyString => is_sep c
  | String _ s' => endswith_sep s'
  end.

Definition is_empty (s : string) : bool :=
  match s with EmptyString => true | _ => false end.

(** [join(a, b)]: an absolute [b] replaces [a]; otherwise one separator
    is put between them unless [a] is empty or already ends with one. *)
Definition join (a b : string) : string :=
  if startswith_sep b then b
  else if is_empty a || endswith_sep a then a +:+ b
  else a +:+ "/" +:+ b.

(** [p[:p.rfind('/') + 1]] *)
Fixpoint upto_last_sep (p : string) : string :=
  match p with
  | EmptyString => EmptyString
  | String c p' =>
      let h := upto_last_sep p' in
      if is_sep c || negb (is_empty h) then String c h else EmptyString
  end.

(** [head.rstrip('/')] *)
Fixpoint rstrip_sep (s : string) : string :=
  match s with
  | EmptyString => EmptyString
  | String c s' =>
      let r := rstrip_sep s' in
      if is_sep c && is_empty r then EmptyString else String c r
  end.

(** [head == sep * len(head)] *)
Fixpoint all_sep (s : string) : bool :=
  match s with
  | EmptyString => true
  | String c s' => is_sep c && all_sep s'
  end.

(** [dirname(p)] *)
Definition dirname (p : string) : string :=
  let head := upto_last_sep p in
  if negb (is_empty head) && negb (all_sep head) then rstrip_sep head
  else head.

End os_path.

(** ** The environment *)

(** What [subprocess.run(..., check=False, stdout=PIPE, stderr=PIPE,
    text=True)] hands back once the child has ended. *)
Record CompletedProcess := {
  returncode : Z;
  stdout : string;
  stderr : string
}.

(** The operating system as the script sees it.  A call that raises in
    Python (the program cannot be started, the directory cannot be made,
    the copy cannot be written) answers [None] or [false]; the world it
    leaves behind is whatever the system made of the attempt. *)
Class OS := {
  World : Type;
  (** [subprocess.run(cmd, ...)]: [None] when no child could be started. *)
  subprocess_run : list string → World → option CompletedProcess * World;
  (** [tempfile.TemporaryDirectory(suffix=...)]: the directory's name. *)
  TemporaryDirectory : string → World → option string * World;
  (** [os.path.exists(p)] *)
  path_exists : string → World → bool;
  (** [os.makedirs(p)] *)
  makedirs : string → World → bool * World;
  (** [shutil.copyfile(src, dst)] *)
  copyfile : string → string → World → bool * World;
  (** The bytes of the regular file at a path, to state what a copy did. *)
  read_file : string → World → option (list Byte.byte)
}.

(** What the libraries do on an ordinary path, stated of one path in one
    world; the script relies on both without checking.

    At an ordinary file location a copy that returns has written the
    source's bytes to the destination and left the source as it was.  It
    is not so everywhere: to a device such as [/dev/null] the copy returns
    as well, and nothing can be read back. *)
Definition regular_destination {os : OS} (dst : string) (w : World) : Prop :=
  ∀ src w', copyfile src dst w = (true, w') →
    ∃ c, read_file src w = Some c ∧ read_file src w' = Some c
         ∧ read_file dst w' = Some c.

(** A call of [os.makedirs] that returns leaves the path in existence. *)
Definition makedirs_creates {os : OS} (p : string) (w : World) : Prop :=
  ∀ w', makedirs p w = (true, w') → path_exists p w' = true.

(** ** Exceptions, log and program state *)

Inductive exn :=
| PipelineError (msg : string)   (* the script's own exception class *)
| SystemExit (code : Z)          (* sys.exit(code) *)
| IndexError                     (* cmd[0] on an empty list *)
| OSError.                       (* raised inside a library call *)

Inductive event :=
| EPrint (line : string)                                 (* print(...) *)
| EPrintStack                                            (* traceback.print_stack() *)
| ESpawn (cmd : list string) (res : option CompletedProcess)
| EMkdtemp (suffix : string) (res : option string)
| EExists (p : string) (b : bool)
| EMakedirs (p : string) (ok : bool)
| ECopyfile (src dst : string) (ok : bool)
| EUncaught (e : exn).            (* the interpreter's report of an uncaught exception *)

Declare Scope py_scope.

Inductive result (A : Type) :=
| Ok (a : A)
| Raise (e : exn).
Arguments Ok {A} a.
Arguments Raise {A} e.

Section Script.
Context {os : OS}.

(** The module's one global, the world, and the log. *)
Record state := {
  __verbose__ : bool;
  world : World;
  log : list event
}.

Definition M (A : Type) : Type := state → result A * state.

Definition ret {A} (a : A) : M A := λ st, (Ok a, st).

(** Sequencing: an exception ends the rest of the block. *)
Definition bind {A B} (m : M A) (f : A → M B) : M B := λ st,
  match m st with
  | (Ok a, st') => f a st'
  | (Raise e, st') => (Raise e, st')
  end.

Notation "x ← y ; z" := (bind y (λ x : _, z))
  (at level 20, y at level 100, z at level 200, only parsing) : py_scope.
Notation "x ;; z" := (bind x (λ _, z))
  (at level 100, z at level 200, only parsing, right associativity) : py_scope.
Local Open Scope py_scope.

Definition raise {A} (e : exn) : M A := λ st, (Raise e, st).

Definition emit (e : event) : M unit := λ st,
  (Ok tt, {| __verbose__ := __verbose__ st; world := world st;
             log := log st ++ [e] |}).

Definition set_world (w : World) : M unit := λ st,
  (Ok tt, {| __verbose__ := __verbose__ st; world := w; log := log st |}).

Definition get_verbose : M bool := λ st, (Ok (__verbose__ st), st).
Definition get_world : M World := λ st, (Ok (world st), st).

Definition pass : M unit := ret tt.

Definition print (line : string) : M unit := emit (EPrint line).
Definition print_stack : M unit := emit EPrintStack.

(** [cmd[0]] *)
Definition item0 (cmd : list string) : M string :=
  match cmd with
  | c0 :: _ => ret c0
  | [] => raise IndexError
  end.

(** The library calls, each logged with its answer. *)
Definition run (cmd : list string) : M CompletedProcess :=
  w ← get_world;
  let '(res, w') := subprocess_run cmd w in
  set_world w';; emit (ESpawn cmd res);;
  match res with
  | Some r => ret r
  | None => raise OSError
  end.

Definition mkdtemp (suffix : string) : M string :=
  w ← get_world;
  let '(res, w') := TemporaryDirectory suffix w in
  set_world w';; emit (EMkdtemp suffix res);;
  match res with
  | Some name => ret name
  | None => raise OSError
  end.

Definition exists_ (p : string) : M bool :=
  w ← get_world;
  let b := path_exists p w in
  emit (EExists p b);; ret b.

Definition os_makedirs (p : string) : M unit :=
  w ← get_world;
  let '(ok, w') := makedirs p w in
  set_world w';; emit (EMakedirs p ok);;
  if ok then pass else raise OSError.

Definition shutil_copyfile (src dst : string) : M unit :=
  w ← get_world;
  let '(ok, w') := copyfile src dst w in
  set_world w';; emit (ECopyfile src dst ok);;
  if ok then pass else raise OSError.

(** [try: body / except PipelineError: handler] *)
Definition try_except_PipelineError {A} (body handler : M A) : M A := λ st,
  match body st with
  | (Raise (PipelineError _), st') => handler st'
  | other => other
  end.

(** *** [run_command] (lines 30-55) *)

(** The dictionary with keys ['cmd_str'], ['stderr'], ['stdout']. *)
Record CommandResult := {
  cmd_str : string;
  res_stderr : string;
  res_stdout : string
}.

Definition run_command (cmd : list string) : M CommandResult :=
  v ← get_verbose;
  (if v then
     c0 ← item0 cmd;
     print ("--- Running " +:+ c0 +:+ " ---");;
     print (join_args cmd)
   else pass : M unit);;
  result ← run cmd;
  v ← get_verbose;
  (if v then
     print "--- command stdout ---";;
     print (stdout result);;
     print "--- command stderr ---";;
     print (stderr result);;
     c0 ← item0 cmd;
     print ("--- end " +:+ c0 +:+ " ---")
   else pass : M unit);;
  (if negb (returncode result =? 0) then
     print ("Error running command: " +:+ join_args cmd);;
     print_stack;;
     v ← get_verbose;
     if negb v then
       print ("command stdout:" +:+ nl +:+ stdout result);;
       print ("command stderr:" +:+ nl +:+ stderr result);;
       raise (PipelineError ("Error running command: " +:+ join_args cmd))
     else pass
   else pass : M unit);;
  ret {| cmd_str := join_args cmd;
          res_stderr := stderr result;
          res_stdout := stdout result |}.

(** *** [trim_neck] (lines 68-89) *)

(** [f"{pad_mm}x{pad_mm}x{pad_mm}mm"] *)
Definition pad_arg (pad_mm : py_object) : string :=
  format pad_mm +:+ "x" +:+ format pad_mm +:+ "x" +:+ format pad_mm +:+ "mm".

(** [pad_mm=10] in the signature: [None] is a call that leaves it out. *)
Definition pad_mm_default : py_object := py_int 10.

Definition trim_neck (input_image working_dir : string)
    (pad_mm : option py_object) : M string :=
  let pad_mm := default pad_mm_default pad_mm in
  let reoriented_image :=
    os_path.join working_dir "input_reoriented_LPI.nii.gz" in
  _ ← run_command
        ["c3d"; input_image; "-swapdim"; "LPI"; "-o"; reoriented_image];
  let tmp_image_trim := os_path.join working_dir "T1wNeckTrim.nii.gz" in
  let tmp_mask_trim := os_path.join working_dir "T1wNeckTrim_mask.nii.gz" in
  let tmp_trim_region_image :=
    os_path.join working_dir "T1wNeckTrim_region.nii.gz" in
  _ ← run_command
        ["trim_neck.sh"; "-c"; "20"; "-w"; working_dir; reoriented_image;
         tmp_image_trim];
  _ ← run_command
        ["c3d"; tmp_image_trim; "-pad"; pad_arg pad_mm; pad_arg pad_mm; "0";
         "-o"; tmp_image_trim];
  ret tmp_image_trim.

(** *** [main] once the command line is parsed (lines 116-144) *)

(** What [parser.parse_args()] returns: both options are required strings. *)
Record Args := {
  input : string;
  output : string
}.

Definition sys_exit {A} (code : Z) : M A := raise (SystemExit code).

Definition main (args : Args) : M unit :=
  try_except_PipelineError
    (_ ← run_command ["c3d"; "-h"]; pass)
    (print "Could not run c3d, check PATH";; sys_exit 1);;
  try_except_PipelineError
    (_ ← run_command ["trim_neck.sh"; "-h"]; pass)
    (print "Could not run trim_neck.sh, check PATH";; sys_exit 1);;
  base_working_dir ← mkdtemp "t1wpreproc.tmpdir";
  e ← exists_ (input args);
  (if negb e then
     print ("Input image " +:+ input args +:+ " does not exist");;
     sys_exit 1
   else pass : M unit);;
  let output_dir := os_path.dirname (output args) in
  (if (0 <? Z.of_nat (String.length output_dir)) then
     e ← exists_ output_dir;
     if negb e then os_makedirs output_dir else pass
   else pass : M unit);;
  trimmed ← trim_neck (input args) base_working_dir (Some (py_int 10));
  shutil_copyfile trimmed (output args).

(** *** The process once the command line is parsed *)

(** The module body has set [__verbose__ = False] before [main] runs. *)
Definition initial (w : World) : state :=
  {| __verbose__ := false; world := w; log := [] |}.

(** The interpreter turns [main]'s outcome into the exit status: 0 when it
    returns, the code of a [SystemExit], and 1 after reporting any other
    exception that nothing caught. *)
Definition process (args : Args) (w : World) : Z * state :=
  match main args (initial w) with
  | (Ok _, st) => (0, st)
  | (Raise (SystemExit code), st) => (code, st)
  | (Raise e, st) =>
      (1, {| __verbose__ := __verbose__ st; world := world st;
             log := log st ++ [EUncaught e] |})
  end.

(** *** The command line: [parser.parse_args()] (lines 103-114)

    Both options are required and [-h]/[--help] has the action [help]: the
    parser returns the two options, or it ends the process itself, with
    status 0 after printing the help text, or with status 2 after
    printing a usage message for a command line it does not accept. *)
Inductive parse_result :=
| Parsed (args : Args)
| HelpRequested (text : string)
| UsageError (text : string).

Definition parse_args (cl : parse_result) : M Args :=
  match cl with
  | Parsed args => ret args
  | HelpRequested text => print text;; sys_exit 0
  | UsageError text => print text;; sys_exit 2
  end.

(** [main()] from its first line. *)
Definition main_of_command_line (cl : parse_result) : M unit :=
  args ← parse_args cl;
  main args.

(** The whole process, from the command line on. *)
Definition script (cl : parse_result) (w : World) : Z * state :=
  match main_of_command_line cl (initial w) with
  | (Ok _, st) => (0, st)
  | (Raise (SystemExit code), st) => (code, st)
  | (Raise e, st) =>
      (1, {| __verbose__ := __verbose__ st; world := world st;
             log := log st ++ [EUncaught e] |})
  end.

End Script.

(** ** Reading a log *)

(** The children spawned, in order, each with what [subprocess.run] answered. *)
Fixpoint spawned (l : list event) : list (list string * option CompletedProcess) :=
  match l with
  | [] => []
  | ESpawn cmd res :: l' => (cmd, res) :: spawned l'
  | _ :: l' => spawned l'
  end.

(** The command lines alone. *)
Definition commands (l : list event) : list (list string) :=
  map fst (spawned l).

(** The calls of [shutil.copyfile]: source, destination, whether it returned. *)
Fixpoint copies (l : list event) : list (string * string * bool) :=
  match l with
  | [] => []
  | ECopyfile src dst ok :: l' => (src, dst, ok) :: copies l'
  | _ :: l' => copies l'
  end.

(** The calls of [os.makedirs]. *)
Fixpoint made_dirs (l : list event) : list (string * bool) :=
  match l with
  | [] => []
  | EMakedirs p ok :: l' => (p, ok) :: made_dirs l'
  | _ :: l' => made_dirs l'
  end.

(** Events that only write to the console. *)
Definition console_only (e : event) : Prop :=
  match e with
  | EPrint _ | EPrintStack | EUncaught _ => True
  | _ => False
  end.

(** The invocations of one program: the command lines whose first token is it. *)
Definition invocations_of (prog : string) (l : list event) : list (list string) :=
  filter (λ cmd, head cmd = Some prog) (commands l).

(** The two probes of [main] and the three commands of [trim_neck], as the
    source writes them. *)
Definition probe_c3d : list string := ["c3d"; "-h"].
Definition probe_trim_neck : list string := ["trim_neck.sh"; "-h"].

Definition reoriented_path (working_dir : string) : string :=
  os_path.join working_dir "input_reoriented_LPI.nii.gz".
Definition trimmed_path (working_dir : string) : string :=
  os_path.join working_dir "T1wNeckTrim.nii.gz".

Definition reorient_cmd (input_image working_dir : string) : list string :=
  ["c3d"; input_image; "-swapdim"; "LPI"; "-o"; reoriented_path working_dir].
Definition trim_cmd (working_dir : string) : list string :=
  ["trim_neck.sh"; "-c"; "20"; "-w"; working_dir;
   reoriented_path working_dir; trimmed_path working_dir].
Definition pad_cmd (working_dir bounds : string) : list string :=
  ["c3d"; trimmed_path working_dir; "-pad"; bounds; bounds; "0"; "-o";
   trimmed_path working_dir].

(** The world in which [main] looks at the paths (lines 133-139): the one
    left by the two probes and the creation of the scratch directory,
    the only calls before. *)
Definition world_at_tests {os : OS} (w : World) : World :=
  snd (TemporaryDirectory "t1wpreproc.tmpdir"
         (snd (subprocess_run probe_trim_neck
                 (snd (subprocess_run probe_c3d w))))).

(** A run reaches the pipeline when the reorient command was spawned. *)
Definition reaches_pipeline (l : list event) : Prop :=
  ∃ cmd res, In (ESpawn cmd res) l ∧ cmd !! 2%nat = Some "-swapdim".

(** The four lines [run_command] writes before it raises. *)
Definition failure_report (cmd : list string) (r : CompletedProcess) : list event :=
  [EPrint ("Error running command: " +:+ join_args cmd);
   EPrintStack;
   EPrint ("command stdout:" +:+ nl +:+ stdout r);
   EPrint ("command stderr:" +:+ nl +:+ stderr r)].

(** Nothing went wrong at this event: a child that was started and returned
    zero, a library call that returned, an input that was found. *)
Definition uneventful (args : Args) (e : event) : Prop :=
  match e with
  | ESpawn _ (Some r) => returncode r = 0
  | ESpawn _ None => False
  | EMkdtemp _ None => False
  | EMakedirs _ false => False
  | ECopyfile _ _ false => False
  | EExists p false => p ≠ input args
  | _ => True
  end.

(** The reasons for which [main] stops before the pipeline, each with the
    last thing the run writes to the console. *)
Inductive precondition_failure (args : Args) (l : list event) : event → Prop :=
| c3d_probe_nonzero r :
    In (ESpawn probe_c3d (Some r)) l → returncode r ≠ 0 →
    precondition_failure args l (EPrint "Could not run c3d, check PATH")
| trim_neck_probe_nonzero r :
    In (ESpawn probe_trim_neck (Some r)) l → returncode r ≠ 0 →
    precondition_failure args l (EPrint "Could not run trim_neck.sh, check PATH")
| probe_not_started cmd :
    In (ESpawn cmd None) l → cmd = probe_c3d ∨ cmd = probe_trim_neck →
    precondition_failure args l (EUncaught OSError)
| input_missing :
    In (EExists (input args) false) l →
    precondition_failure args l
      (EPrint ("Input image " +:+ input args +:+ " does not exist")).

(** ** A small operating system to run the script on

    Paths are the keys of a finite map, compared as written.  The two
    programs are installed or not; a started child copies its input image
    to its output path and returns 0, or returns 1 when its input is no
    regular file or when it is the invocation chosen to fail. *)
Module Sim.

Inductive node :=
| File (content : list Byte.byte)
| Dir.

Record world := {
  fs : gmap string node;
  installed : list string;     (* the programs found on PATH *)
  calls : nat;                 (* children started so far *)
  fail_at : option nat         (* the invocation that exits with status 1 *)
}.

Definition with_fs (w : world) (m : gmap string node) : world :=
  {| fs := m; installed := installed w; calls := calls w;
     fail_at := fail_at w |}.

Definition called (w : world) : world :=
  {| fs := fs w; installed := installed w; calls := S (calls w);
     fail_at := fail_at w |}.

Definition file_at (p : string) (m : gmap string node) : option (list Byte.byte) :=
  match m !! p with
  | Some (File c) => Some c
  | _ => None
  end.

(** Which token is the input image and which the output, by the shape of
    the three command lines; a two-token command is a help probe. *)
Definition in_out (cmd : list string) : option (option (string * string)) :=
  match cmd with
  | [_; _] => Some None
  | [_; i; _; _; _; o] => Some (Some (i, o))
  | [_; _; _; _; _; i; o] => Some (Some (i, o))
  | [_; i; _; _; _; _; _; o] => Some (Some (i, o))
  | _ => None
  end.

Definition exit_with (code : Z) (err : string) : CompletedProcess :=
  {| returncode := code; stdout := ""; stderr := err |}.

Definition sim_run (cmd : list string) (w : world)
  : option CompletedProcess * world :=
  match cmd with
  | [] => (None, w)
  | prog :: _ =>
      if bool_decide (prog ∈ installed w) then
        if bool_decide (fail_at w = Some (calls w)) then
          (Some (exit_with 1 "failed"), called w)
        else
          match in_out cmd with
          | Some None => (Some (exit_with 0 ""), called w)
          | Some (Some (i, o)) =>
              match file_at i (fs w) with
              | Some c =>
                  (Some (exit_with 0 ""),
                   called (with_fs w (<[o := File c]> (fs w))))
              | None => (Some (exit_with 1 "no such image"), called w)
              end
          | None => (Some (exit_with 2 "usage"), called w)
          end
      else (None, w)
  end.

Definition sim_mkdtemp (suffix : string) (w : world) : option string * world :=
  let name := "/tmp/tmpq8k2" +:+ suffix in
  match fs w !! "/tmp", fs w !! name with
  | Some Dir, None => (Some name, with_fs w (<[name := Dir]> (fs w)))
  | _, _ => (None, w)
  end.

Definition sim_exists (p : string) (w : world) : bool :=
  bool_decide (is_Some (fs w !! p)).

(** The directory a path lies in is there: the current directory for a
    bare name, a directory of the map otherwise. *)
Definition parent_ok (p : string) (m : gmap string node) : bool :=
  let d := os_path.dirname p in
  os_path.is_empty d || match m !! d with Some Dir => true | _ => false end.

(** [makedirs]: the missing ancestors first, then the leaf, which must
    not exist. *)
Fixpoint mkdirs (fuel : nat) (p : string) (m : gmap string node)
  : option (gmap string node) :=
  match fuel with
  | O => None
  | S n =>
      match m !! p with
      | Some _ => None
      | None =>
          let d := os_path.dirname p in
          let parents :=
            if os_path.is_empty d then Some m
            else match m !! d with
                 | Some Dir => Some m
                 | Some (File _) => None
                 | None => mkdirs n d m
                 end in
          match parents with
          | Some m' => Some (<[p := Dir]> m')
          | None => None
          end
      end
  end.

Definition sim_makedirs (p : string) (w : world) : bool * world :=
  match mkdirs (S (String.length p)) p (fs w) with
  | Some m => (true, with_fs w m)
  | None => (false, w)
  end.

Definition sim_copyfile (src dst : string) (w : world) : bool * world :=
  match file_at src (fs w) with
  | Some c =>
      if bool_decide (src = dst) then (false, w)
      else match fs w !! dst with
           | Some Dir => (false, w)
           | _ =>
               if parent_ok dst (fs w)
               then (true, with_fs w (<[dst := File c]> (fs w)))
               else (false, w)
           end
  | None => (false, w)
  end.

Definition sim_read (p : string) (w : world) : option (list Byte.byte) :=
  file_at p (fs w).

Definition sim : OS := {|
  World := world;
  subprocess_run := sim_run;
  TemporaryDirectory := sim_mkdtemp;
  path_exists := sim_exists;
  makedirs := sim_makedirs;
  copyfile := sim_copyfile;
  read_file := sim_read
|}.

(** A machine with both programs, [/tmp], a data directory and one image. *)
Definition image : list Byte.byte := [Byte.x1f; Byte.x8b; Byte.x08].

Definition disk : gmap string node :=
  <["/" := Dir]> (<["/tmp" := Dir]> (<["/data" := Dir]>
    (<["/data/brain_native.nii.gz" := File image]> ∅))).

Definition machine (fail : option nat) : world :=
  {| fs := disk; installed := ["c3d"; "trim_neck.sh"]; calls := 0;
     fail_at := fail |}.

(** The same machine without [trim_neck.sh] on PATH. *)
Definition machine_without_trim_neck : world :=
  {| fs := disk; installed := ["c3d"]; calls := 0; fail_at := None |}.

Definition args_into (out : string) : Args :=
  {| input := "/data/brain_native.nii.gz"; output := out |}.

(** The script's state on this machine before anything ran. *)
Definition state_of (verbose : bool) (w : world) : @state sim :=
  @Build_state sim verbose w [].

End Sim.


(** ** Shapes of logs used in the statements *)

(** The log stops at the first child that fails: after a non-zero exit
    status, only console output follows. *)
Fixpoint stops_at_failure (l : list event) : Prop :=
  match l with
  | [] => True
  | ESpawn _ (Some r) :: l' =>
      (returncode r ≠ 0 → Forall console_only l') ∧ stops_at_failure l'
  | _ :: l' => stops_at_failure l'
  end.

(** The log of a run with the flag off: nothing is printed right after a
    child that returned zero, and the four lines of the failure report
    follow a child that did not. *)
Fixpoint reports_failures_only (l : list event) : Prop :=
  match l with
  | [] => True
  | ESpawn cmd (Some r) :: l' =>
      (if returncode r =? 0
       then ∀ line, head l' ≠ Some (EPrint line)
       else take 4 l' = failure_report cmd r)
      ∧ reports_failures_only l'
  | _ :: l' => reports_failures_only l'
  end.

(** A computation that leaves the global flag as it found it. *)
Definition keeps_flag {os : OS} {A} (m : M A) : Prop :=
  ∀ st, __verbose__ (snd (m st)) = __verbose__ st.

(** A library call that raised: a child that could not be started, or a
    call of [tempfile], [os.makedirs] or [shutil.copyfile] that did not
    return. *)
Definition library_call_raised (e : event) : Prop :=
  match e with
  | ESpawn _ None | EMkdtemp _ None | EMakedirs _ false
  | ECopyfile _ _ false => True
  | _ => False
  end.

(** * Properties *)

(** ** Sanity checks of the helpers on concrete values *)

Example dirname_nested : os_path.dirname "out/trimmed.nii.gz" = "out".
Proof. reflexivity. Qed.

Example dirname_bare : os_path.dirname "trimmed.nii.gz" = "".
Proof. reflexivity. Qed.

Example dirname_root : os_path.dirname "/trimmed.nii.gz" = "/".
Proof. reflexivity. Qed.

Example join_scratch :
  os_path.join "/tmp/x" "T1wNeckTrim.nii.gz" = "/tmp/x/T1wNeckTrim.nii.gz".
Proof. reflexivity. Qed.

Example pad_arg_10 : pad_arg (py_int 10) = "10x10x10mm".
Proof. reflexivity. Qed.

Example join_args_probe : join_args ["c3d"; "-h"] = "c3d -h".
Proof. reflexivity. Qed.

(** ** Lists of events *)

Lemma spawned_app l1 l2 : spawned (l1 ++ l2) = spawned l1 ++ spawned l2.
Proof.
  induction l1 as [|e l1 IH]; [done|].
  destruct e; simpl; by rewrite ?IH.
Qed.

Lemma commands_app l1 l2 : commands (l1 ++ l2) = commands l1 ++ commands l2.
Proof. unfold commands. by rewrite spawned_app, map_app. Qed.

Lemma stops_at_failure_split l pre cmd r post :
  stops_at_failure l →
  l = pre ++ ESpawn cmd (Some r) :: post →
  returncode r ≠ 0 →
  Forall console_only post.
Proof.
  intros Hl -> Hr. induction pre as [|e pre IH]; simpl in Hl.
  - by apply Hl.
  - apply IH. destruct e as [| |? [?|]| | | | |]; tauto.
Qed.

Lemma reports_failures_only_split l pre cmd r post :
  reports_failures_only l →
  l = pre ++ ESpawn cmd (Some r) :: post →
  if returncode r =? 0
  then ∀ line, head post ≠ Some (EPrint line)
  else take 4 post = failure_report cmd r.
Proof.
  intros Hl ->. induction pre as [|e pre IH]; simpl in Hl.
  - by apply Hl.
  - apply IH. destruct e as [| |? [?|]| | | | |]; tauto.
Qed.

(** ** Running the script symbolically *)

(** Unfolds the script and the monad, and nothing of the strings or lists. *)
Ltac script_unfold :=
  cbv beta iota zeta delta
    [run_command trim_neck main process script main_of_command_line
     parse_args initial bind ret raise emit set_world
     get_verbose get_world pass print print_stack item0 run mkdtemp exists_
     os_makedirs shutil_copyfile try_except_PipelineError sys_exit
     __verbose__ world log default from_option id pad_mm_default negb].

(** One step of a symbolic run: a case on the answer of the next call to
    the operating system, or on the next test of the script. *)
Ltac script_step :=
  match goal with
  | |- context [subprocess_run ?c ?w] =>
      let r := fresh "r" in let w' := fresh "w" in let E := fresh "Hrun" in
      destruct (subprocess_run c w) as [[r|] w'] eqn:E
  | |- context [Z.eqb (returncode ?r) 0] =>
      let E := fresh "Hrc" in destruct (Z.eqb (returncode r) 0) eqn:E
  | |- context [TemporaryDirectory ?s ?w] =>
      let d := fresh "tmp" in let w' := fresh "w" in let E := fresh "Htmp" in
      destruct (TemporaryDirectory s w) as [[d|] w'] eqn:E
  | |- context [path_exists ?p ?w] =>
      let E := fresh "Hex" in destruct (path_exists p w) eqn:E
  | |- context [makedirs ?p ?w] =>
      let w' := fresh "w" in let E := fresh "Hmk" in
      destruct (makedirs p w) as [[] w'] eqn:E
  | |- context [copyfile ?a ?b ?w] =>
      let w' := fresh "w" in let E := fresh "Hcp" in
      destruct (copyfile a b w) as [[] w'] eqn:E
  | |- context [Z.ltb 0 ?n] =>
      let E := fresh "Hlen" in destruct (Z.ltb 0 n) eqn:E
  end; script_unfold.

(** Every path through the script in the goal, with the answers that select
    the path in the context. *)
Ltac script_paths :=
  script_unfold; repeat script_step;
  rewrite <- ?app_assoc; rewrite ?app_nil_l; simpl app.

(** Uses a membership in a log that is known event by event: the event is
    none of those of another kind, and is not a child that returned zero
    when it is known to have returned something else. *)
Ltac by_membership H :=
  cbn [In] in H;
  repeat match type of H with
         | _ ∨ _ => destruct H as [H|H]
         | False => destruct H
         end;
  try discriminate H;
  try (injection H as ?; simplify_eq).

(** ** The flag is never written *)

Section Flag.
Context {os : OS}.

Lemma keeps_flag_ret {A} (a : A) : keeps_flag (ret a).
Proof. by intros st. Qed.

Lemma keeps_flag_raise {A} e : keeps_flag (raise (A := A) e).
Proof. by intros st. Qed.

Lemma keeps_flag_emit e : keeps_flag (emit e).
Proof. by intros st. Qed.

Lemma keeps_flag_set_world w : keeps_flag (set_world w).
Proof. by intros st. Qed.

Lemma keeps_flag_get_verbose : keeps_flag get_verbose.
Proof. by intros st. Qed.

Lemma keeps_flag_get_world : keeps_flag get_world.
Proof. by intros st. Qed.

Lemma keeps_flag_bind {A B} (m : M A) (f : A → M B) :
  keeps_flag m → (∀ a, keeps_flag (f a)) → keeps_flag (bind m f).
Proof.
  intros Hm Hf st. unfold bind. specialize (Hm st).
  destruct (m st) as [[a|e] st1]; simpl in *; [|done].
  by rewrite Hf.
Qed.

Lemma keeps_flag_try {A} (body handler : M A) :
  keeps_flag body → keeps_flag handler →
  keeps_flag (try_except_PipelineError body handler).
Proof.
  intros Hb Hh st. unfold try_except_PipelineError. specialize (Hb st).
  destruct (body st) as [[a|[]] st1]; simpl in *; try done.
  by rewrite Hh.
Qed.

Lemma keeps_flag_if {A} (b : bool) (m1 m2 : M A) :
  keeps_flag m1 → keeps_flag m2 → keeps_flag (if b then m1 else m2).
Proof. by destruct b. Qed.

Create HintDb flag.
Hint Resolve keeps_flag_ret keeps_flag_raise keeps_flag_emit
  keeps_flag_set_world keeps_flag_get_verbose keeps_flag_get_world : flag.

Ltac flag :=
  repeat first
    [ solve [auto with flag]
    | apply keeps_flag_bind; [|intros ?]
    | apply keeps_flag_if
    | apply keeps_flag_try ].

Lemma keeps_flag_item0 cmd : keeps_flag (item0 cmd).
Proof. destruct cmd; unfold item0; flag. Qed.

Lemma keeps_flag_run cmd : keeps_flag (run cmd).
Proof.
  unfold run. flag.
  destruct (subprocess_run _ _) as [[r|] w']; flag.
Qed.

Hint Resolve keeps_flag_item0 keeps_flag_run : flag.

Lemma keeps_flag_run_command cmd : keeps_flag (run_command cmd).
Proof. unfold run_command, print, print_stack, pass. flag. Qed.

Hint Resolve keeps_flag_run_command : flag.

Lemma keeps_flag_trim_neck input_image working_dir pad_mm :
  keeps_flag (trim_neck input_image working_dir pad_mm).
Proof. unfold trim_neck. flag. Qed.

Hint Resolve keeps_flag_trim_neck : flag.

Lemma keeps_flag_main args : keeps_flag (main args).
Proof.
  unfold main, print, sys_exit, pass, mkdtemp, exists_, os_makedirs,
    shutil_copyfile.
  flag.
  - destruct (TemporaryDirectory _ _) as [[d|] w']; flag.
  - destruct (makedirs _ _) as [[] w']; flag.
  - destruct (copyfile _ _ _) as [[] w']; flag.
Qed.

End Flag.

(** ** [run_command] *)

Section RunCommand.
Context {os : OS}.

(** With the flag off, [run_command] is silent on exit status zero and
    reports and raises on any other. *)
Lemma run_command_quiet cmd st :
  __verbose__ st = false →
  run_command cmd st =
    match subprocess_run cmd (world st) with
    | (None, w') =>
        (Raise OSError,
         {| __verbose__ := false; world := w';
            log := log st ++ [ESpawn cmd None] |})
    | (Some r, w') =>
        if returncode r =? 0 then
          (Ok {| cmd_str := join_args cmd; res_stderr := stderr r;
                 res_stdout := stdout r |},
           {| __verbose__ := false; world := w';
              log := log st ++ [ESpawn cmd (Some r)] |})
        else
          (Raise (PipelineError ("Error running command: " +:+ join_args cmd)),
           {| __verbose__ := false; world := w';
              log := log st ++ ESpawn cmd (Some r) :: failure_report cmd r |})
    end.
Proof.
  intros Hv. destruct st as [v w l]; simpl in Hv; subst v.
  script_unfold.
  destruct (subprocess_run cmd w) as [[r|] w']; script_unfold; [|done].
  destruct (returncode r =? 0); script_unfold; [done|].
  unfold failure_report. by rewrite <- !app_assoc.
Qed.

(** C1. What [run_command] does with a child that returns a non-zero exit
    status, for each value of the flag.  The command line, both streams
    and the stack trace reach the console either way; but with the flag
    on the call does not fail: it returns the dictionary, as it does
    after exit status zero.  [PipelineError], carrying the joined command
    line, is raised only with the flag off. *)
Theorem run_command_nonzero_exit cmd c0 rest st r w' :
  cmd = c0 :: rest →
  subprocess_run cmd (world st) = (Some r, w') →
  returncode r ≠ 0 →
  run_command cmd st =
    if __verbose__ st then
      (Ok {| cmd_str := join_args cmd; res_stderr := stderr r;
             res_stdout := stdout r |},
       {| __verbose__ := true; world := w';
          log := log st ++
            [EPrint ("--- Running " +:+ c0 +:+ " ---");
             EPrint (join_args cmd);
             ESpawn cmd (Some r);
             EPrint "--- command stdout ---";
             EPrint (stdout r);
             EPrint "--- command stderr ---";
             EPrint (stderr r);
             EPrint ("--- end " +:+ c0 +:+ " ---");
             EPrint ("Error running command: " +:+ join_args cmd);
             EPrintStack] |})
    else
      (Raise (PipelineError ("Error running command: " +:+ join_args cmd)),
       {| __verbose__ := false; world := w';
          log := log st ++
            [ESpawn cmd (Some r);
             EPrint ("Error running command: " +:+ join_args cmd);
             EPrintStack;
             EPrint ("command stdout:" +:+ nl +:+ stdout r);
             EPrint ("command stderr:" +:+ nl +:+ stderr r)] |}).
Proof.
  intros -> Hrun Hne. destruct st as [[] w l]; simpl in Hrun.
  - script_unfold. rewrite Hrun. script_unfold.
    destruct (returncode r =? 0) eqn:Hrc; [lia|].
    script_unfold. by rewrite <- !app_assoc.
  - rewrite run_command_quiet by done. simpl. rewrite Hrun.
    destruct (returncode r =? 0) eqn:Hrc; [lia|]. done.
Qed.

End RunCommand.

(** ** [trim_neck] *)

Section TrimNeck.
Context {os : OS}.

(** The commands [trim_neck] spawns are the first [k] of its three steps,
    and all three when it returns. *)
Lemma trim_neck_commands input_image working_dir pad_mm st res st' :
  trim_neck input_image working_dir pad_mm st = (res, st') →
  ∃ added k,
    log st' = log st ++ added
    ∧ commands added =
        take k [reorient_cmd input_image working_dir;
                trim_cmd working_dir;
                pad_cmd working_dir (pad_arg (default (py_int 10) pad_mm))]
    ∧ (0 < k ≤ 3)%nat
    ∧ (∀ p, res = Ok p → k = 3%nat ∧ p = trimmed_path working_dir)
    ∧ (∀ r, In (ESpawn (reorient_cmd input_image working_dir) (Some r)) added →
            returncode r = 0 → (2 ≤ k)%nat).
Proof.
  destruct st as [v w l]. destruct v; script_paths.
  all: intros [= <- <-]; cbn [log].
  all: eexists;
    first [ exists 1%nat; split; [reflexivity|]; split; [reflexivity|]
          | exists 2%nat; split; [reflexivity|]; split; [reflexivity|]
          | exists 3%nat; split; [reflexivity|]; split; [reflexivity|] ].
  all: split; [lia|].
  all: split; [intros p [= <-]; done || (by split)|].
  all: try (intros; lia).
  all: intros r' Hin Hz; exfalso; by_membership Hin; lia.
Qed.



End TrimNeck.

(** ** The process *)

Section Process.
Context {os : OS}.

(** The shape of every log of the process: it stops at the first child
    that returns a non-zero status, it holds no echo of a command and the
    failure report after each failed child, and a failed child means exit
    status 1 and no copy. *)
Lemma process_log_shape args w status st :
  process args w = (status, st) →
  stops_at_failure (log st)
  ∧ reports_failures_only (log st)
  ∧ (∀ cmd r, In (ESpawn cmd (Some r)) (log st) → returncode r ≠ 0 →
       status = 1 ∧ copies (log st) = []).
Proof.
  script_paths.
  all: intros [= <- <-]; cbn [log].
  all: split; [|split].
  all: try (intros cmd r' Hin Hne; by_membership Hin; first [lia | by split]).
  all: cbn [stops_at_failure reports_failures_only];
    repeat match goal with
           | H : (returncode ?r =? 0) = _ |- context [returncode ?r =? 0] =>
               rewrite H
           end.
  all: repeat split; try done; try (intros; exfalso; lia).
  all: intros; repeat constructor.
Qed.

(** C2. When an external invocation of a run (the reorient, trim and pad
    steps included) returns a non-zero exit status, nothing follows it in
    the run but console output: no later child, no directory creation, no
    copy.  No copy to the output path is made in the whole run, and the
    process ends with status 1. *)
Theorem failure_is_fatal args w status st pre cmd r post :
  process args w = (status, st) →
  log st = pre ++ ESpawn cmd (Some r) :: post →
  returncode r ≠ 0 →
  Forall console_only post ∧ copies (log st) = [] ∧ status = 1.
Proof.
  intros Hp Hlog Hne.
  destruct (process_log_shape _ _ _ _ Hp) as (Hstop & _ & Hfail).
  split; [by eapply stops_at_failure_split|].
  destruct (Hfail cmd r) as [-> ->]; [|done|done].
  rewrite Hlog. apply in_elt.
Qed.

(** C9. The flag stays [False] through a run of the entry point: the
    process ends with it off, and [main] leaves it as it finds it from
    any state.  So no line of a run echoes a command: nothing is printed
    right after a child that returned zero, and after a child that did
    not come the four lines written on the way to [raise PipelineError],
    and the process ends with status 1. *)
Theorem verbose_stays_false args w :
  __verbose__ (snd (process args w)) = false
  ∧ (∀ st, __verbose__ (snd (main args st)) = __verbose__ st)
  ∧ (∀ pre cmd r post,
       log (snd (process args w)) = pre ++ ESpawn cmd (Some r) :: post →
       if returncode r =? 0
       then ∀ line, head post ≠ Some (EPrint line)
       else take 4 post = failure_report cmd r ∧ fst (process args w) = 1).
Proof.
  split; [|split].
  - unfold process. pose proof (keeps_flag_main args (initial w)) as Hk.
    destruct (main args (initial w)) as [[u|[]] st]; exact Hk.
  - apply keeps_flag_main.
  - intros pre cmd r post Hlog.
    destruct (process args w) as [status st] eqn:Hp; simpl in *.
    destruct (process_log_shape _ _ _ _ Hp) as (_ & Hrep & Hfail).
    pose proof (reports_failures_only_split _ _ _ _ _ Hrep Hlog) as Hr.
    destruct (returncode r =? 0) eqn:Hrc; [done|].
    split; [done|].
    destruct (Hfail cmd r) as [-> _]; [| lia | done].
    rewrite Hlog. apply in_elt.
Qed.

(** Splits a [Forall] over a log that is known event by event. *)
Ltac forall_events H :=
  repeat match type of H with
         | Forall _ (_ :: _) =>
             let H1 := fresh "Hev" in apply Forall_cons in H as [H1 H]
         end;
  cbn [uneventful] in *.


End Process.

Section Preconditions.
Context {os : OS}.

(** C4. When a probe returns a non-zero status or cannot be started, or
    the input path does not exist, the process ends with status 1; the
    last thing the run does is write its message to the console; no
    command but the two probes is spawned; and the script calls neither
    [os.makedirs] nor [shutil.copyfile], so that the world it leaves is
    the one a probe or the creation of the scratch directory returned:
    nothing the script does creates or changes the output path. *)
Theorem precondition_failure_stops args w status st last_event :
  process args w = (status, st) →
  precondition_failure args (log st) last_event →
  status = 1
  ∧ last (log st) = Some last_event
  ∧ console_only last_event
  ∧ (∀ cmd ans, In (ESpawn cmd ans) (log st) →
       cmd = probe_c3d ∨ cmd = probe_trim_neck)
  ∧ made_dirs (log st) = []
  ∧ copies (log st) = []
  ∧ ((∃ cmd w0, In cmd [probe_c3d; probe_trim_neck]
                ∧ world st = snd (subprocess_run cmd w0))
     ∨ (∃ w0, world st = snd (TemporaryDirectory "t1wpreproc.tmpdir" w0))).
Proof.
  script_paths.
  all: intros [= <- <-]; cbn [log world]; intros Hpre.
  all: destruct Hpre as [r' Hin Hne|r' Hin Hne|cmd' Hin Hcmd|Hin].
  all: try (exfalso; by_membership Hin; first [lia | congruence]).
  all: try (exfalso; by_membership Hin; destruct Hcmd; by simplify_eq).
  all: split; [reflexivity|].
  all: split; [reflexivity|].
  all: split; [exact I|].
  all: split; [intros cmd ans Hc; by_membership Hc; auto|].
  all: split; [reflexivity|].
  all: split; [reflexivity|].
  all: match goal with
       | H : TemporaryDirectory _ ?w0 = (_, ?w1) |- _ ∨ (∃ _, ?w1 = _) =>
           right; exists w0; by rewrite H
       | H : subprocess_run ?c ?w0 = (_, ?w1)
         |- (∃ _ _, _ ∧ ?w1 = _) ∨ _ =>
           left; exists c, w0; split; [cbn; auto | by rewrite H]
       end.
Qed.

End Preconditions.

Lemma spawned_commands cmd ans l :
  In (ESpawn cmd ans) l → In cmd (commands l).
Proof.
  unfold commands. induction l as [|e l IH]; [done|].
  intros [->|Hin]; [by left|].
  destruct e; simpl; auto.
Qed.

Lemma commands_spawned cmd l :
  In cmd (commands l) → ∃ ans, In (ESpawn cmd ans) l.
Proof.
  unfold commands. induction l as [|e l IH]; [done|].
  destruct e; simpl; try (intros Hin; destruct (IH Hin) as [ans ?]; eauto).
  intros [<-|Hin]; [eauto|].
  destruct (IH Hin) as [ans ?]; eauto.
Qed.

Section Padding.
Context {os : OS}.

(** Finds an event in a log that is known event by event. *)
Ltac in_log :=
  cbn [In]; solve [repeat (first [left; reflexivity | right])].


End Padding.

Section OutputDirectory.
Context {os : OS}.

(** Brings a fact about the world of the path tests to the world of the
    symbolic run, by the answers of the calls made before. *)
Ltac at_tests H :=
  unfold world_at_tests, probe_c3d, probe_trim_neck in H;
  repeat match type of H with
         | context [subprocess_run ?c ?w0] =>
             match goal with
             | E : subprocess_run c w0 = _ |- _ =>
                 rewrite E in H; cbn [snd] in H
             end
         | context [TemporaryDirectory ?s ?w0] =>
             match goal with
             | E : TemporaryDirectory s w0 = _ |- _ =>
                 rewrite E in H; cbn [snd] in H
             end
         end.

(** C8. In a run that reaches the pipeline, when the directory part of the
    output path is not empty and does not exist on disk at the time the
    script looks (after the probes and the creation of the scratch
    directory), [os.makedirs] is called on it in that very world and
    returns; the reorient step, the first of the pipeline, is started in
    the world that call left, in which the directory exists; and this
    comes before any copy.  No other directory is made. *)
Theorem output_directory_is_created args w status st :
  process args w = (status, st) →
  reaches_pipeline (log st) →
  let d := os_path.dirname (output args) in
  d ≠ "" →
  path_exists d (world_at_tests w) = false →
  makedirs_creates d (world_at_tests w) →
  ∃ w_dir tmp ans w_next pre post,
    makedirs d (world_at_tests w) = (true, w_dir)
    ∧ path_exists d w_dir = true
    ∧ subprocess_run (reorient_cmd (input args) tmp) w_dir = (ans, w_next)
    ∧ log st = pre ++ EMakedirs d true
                 :: ESpawn (reorient_cmd (input args) tmp) ans :: post
    ∧ commands pre = [probe_c3d; probe_trim_neck]
    ∧ copies pre = []
    ∧ made_dirs post = [].
Proof.
  intros Hp Hreach. cbv zeta. intros Hd Hw Hlaw.
  remember (world_at_tests w) as wt eqn:Hwt.
  pose (mk := makedirs).
  change (makedirs (os_path.dirname (output args)) wt)
    with (mk (os_path.dirname (output args)) wt).
  revert Hp Hreach. script_paths.
  all: intros [= <- <-]; cbn [log]; intros (cmd & ans & Hin & Hcmd).
  all: try (exfalso; by_membership Hin; discriminate Hcmd).
  all: clear cmd ans Hin Hcmd.
  all: try (exfalso; destruct (os_path.dirname (output args));
            [congruence | discriminate Hlen]).
  all: at_tests Hwt; subst wt mk.
  all: try (exfalso; congruence).
  all: eexists _, tmp, _, _, [_; _; _; _; _], _.
  all: split; [eassumption|].
  all: split; [eapply Hlaw; eassumption|].
  all: split; [eassumption|].
  all: split; [reflexivity|by repeat split].
Qed.

(** C10. When the output path is a bare file name, its directory part is
    empty: the run tests the existence of no path but the input, never
    calls [os.makedirs], and any copy it makes goes to the output path as
    given. *)
Theorem bare_output_name_makes_no_directory args w status st :
  process args w = (status, st) →
  os_path.dirname (output args) = "" →
  made_dirs (log st) = []
  ∧ (∀ p b, In (EExists p b) (log st) → p = input args)
  ∧ (∀ src dst ok, In (ECopyfile src dst ok) (log st) → dst = output args).
Proof.
  intros Hp Hd. revert Hp. script_unfold. rewrite Hd.
  change (0 <? Z.of_nat (String.length "")) with false.
  script_paths.
  all: intros [= <- <-]; cbn [log].
  all: split; [reflexivity|].
  all: split; [intros p b Hin|intros src dst ok Hin].
  all: by_membership Hin; done.
Qed.

End OutputDirectory.

(** ** Further properties of [run_command], [trim_neck] and [main] *)

Section RunCommandEdges.
Context {os : OS}.

(** X1. A child that returns exit status zero: [run_command] returns the
    dictionary with the joined command line and both streams.  With the
    flag off nothing is written to the console; with the flag on the
    command is echoed before the child runs and both streams after. *)
Theorem run_command_zero_exit cmd c0 rest st r w' :
  cmd = c0 :: rest →
  subprocess_run cmd (world st) = (Some r, w') →
  returncode r = 0 →
  run_command cmd st =
    (Ok {| cmd_str := join_args cmd; res_stderr := stderr r;
           res_stdout := stdout r |},
     {| __verbose__ := __verbose__ st; world := w';
        log := log st ++
          if __verbose__ st then
            [EPrint ("--- Running " +:+ c0 +:+ " ---");
             EPrint (join_args cmd);
             ESpawn cmd (Some r);
             EPrint "--- command stdout ---";
             EPrint (stdout r);
             EPrint "--- command stderr ---";
             EPrint (stderr r);
             EPrint ("--- end " +:+ c0 +:+ " ---")]
          else [ESpawn cmd (Some r)] |}).
Proof.
  intros -> Hrun Hz. destruct st as [[] w l]; simpl in Hrun.
  - script_unfold. rewrite Hrun. script_unfold.
    destruct (returncode r =? 0) eqn:Hrc; [|lia].
    script_unfold. by rewrite <- !app_assoc.
  - rewrite run_command_quiet by done. simpl. rewrite Hrun.
    destruct (returncode r =? 0) eqn:Hrc; [done|lia].
Qed.

(** X2. An empty argument list with the flag on: the echo of [cmd[0]]
    raises [IndexError] before anything is printed or spawned, and the
    state is left as it was. *)
Theorem run_command_empty_verbose st :
  __verbose__ st = true →
  run_command [] st = (Raise IndexError, st).
Proof.
  intros Hv. destruct st as [v w l]; simpl in Hv; subst v. reflexivity.
Qed.

(** X3. [run_command] never retries and never substitutes: it starts at
    most one child, which is the command it was given, started in the
    world it found; it starts exactly one unless the list is empty and the
    flag is on; the world it leaves is the one [subprocess.run] returned;
    and a raise of [PipelineError] means that child returned a non-zero
    status. *)
Theorem run_command_spawns_once cmd st :
  let out := run_command cmd st in
  let ans := subprocess_run cmd (world st) in
  ∃ added,
    log (snd out) = log st ++ added
    ∧ (spawned added = []
       ∨ spawned added = [(cmd, fst ans)] ∧ world (snd out) = snd ans)
    ∧ (spawned added = [] → cmd = [] ∧ __verbose__ st = true
                            ∧ snd out = st)
    ∧ (∀ msg, fst out = Raise (PipelineError msg) →
         msg = "Error running command: " +:+ join_args cmd
         ∧ __verbose__ st = false
         ∧ ∃ r, fst ans = Some r ∧ returncode r ≠ 0).
Proof.
  cbv zeta. destruct st as [v w l]. destruct cmd as [|c0 rest], v.
  all: script_paths; cbn [fst snd log world].
  all: eexists; (split; [first [reflexivity | symmetry; apply app_nil_r]|]).
  all: cbn [spawned].
  all: split; [first [by left | right; by rewrite ?Hrun]|].
  all: split; [first [done | intros [=]]|].
  all: intros msg Hm; try discriminate Hm; injection Hm as <-.
  all: split; [done|]; split; [done|].
  all: eexists; split; [reflexivity|lia].
Qed.

(** X4. A child that cannot be started: [run_command] lets the error of
    [subprocess.run] through.  It is no [PipelineError], nothing is
    printed after the attempt, and no failure report is written. *)
Theorem run_command_cannot_start cmd c0 rest st w' :
  cmd = c0 :: rest →
  subprocess_run cmd (world st) = (None, w') →
  run_command cmd st =
    (Raise OSError,
     {| __verbose__ := __verbose__ st; world := w';
        log := log st ++
          (if __verbose__ st then
             [EPrint ("--- Running " +:+ c0 +:+ " ---");
              EPrint (join_args cmd)]
           else []) ++ [ESpawn cmd None] |}).
Proof.
  intros -> Hrun. destruct st as [[] w l]; simpl in Hrun.
  - script_unfold. rewrite Hrun. script_unfold. by rewrite <- !app_assoc.
  - rewrite run_command_quiet by done. simpl. by rewrite Hrun.
Qed.

End RunCommandEdges.

Section TrimNeckOutcomes.
Context {os : OS}.

(** X5. With the flag off, a call of [trim_neck] that returns has started
    exactly its three commands, each of which returned exit status zero,
    has written nothing to the console, and returns the path of the
    trimmed image in the working directory. *)
Theorem trim_neck_quiet_return input_image working_dir pad_mm st p st' :
  __verbose__ st = false →
  trim_neck input_image working_dir pad_mm st = (Ok p, st') →
  p = trimmed_path working_dir
  ∧ ∃ r1 r2 r3,
      log st' = log st ++
        [ESpawn (reorient_cmd input_image working_dir) (Some r1);
         ESpawn (trim_cmd working_dir) (Some r2);
         ESpawn (pad_cmd working_dir (pad_arg (default (py_int 10) pad_mm))) (Some r3)]
      ∧ returncode r1 = 0 ∧ returncode r2 = 0 ∧ returncode r3 = 0.
Proof.
  destruct st as [v w l]. intros Hv; simpl in Hv; subst v.
  script_paths.
  all: intros [= <- <-]; cbn [log].
  split; [reflexivity|]. exists r, r0, r1. repeat split; lia.
Qed.

(** Checks a proposed split of a log at the step that stopped the call. *)
Ltac quiet_raise_shape :=
  split; [reflexivity|];
  split; [repeat constructor; simpl; lia|];
  split; [reflexivity|];
  first [by split | split; [lia|by split]].

(** X6. With the flag off, a call of [trim_neck] that raises stopped at
    the first step that did not return zero: the steps before it returned
    zero and printed nothing, no step after it was started, and the log
    ends with that step.  If the step returned a non-zero status, the
    failure report follows it and the exception is [PipelineError] with
    that step's command line; if it could not be started, the exception
    is the library's and nothing follows. *)
Theorem trim_neck_quiet_raise input_image working_dir pad_mm st e st' :
  __verbose__ st = false →
  trim_neck input_image working_dir pad_mm st = (Raise e, st') →
  ∃ passed cmd ans tail,
    log st' = log st
              ++ map (λ x, ESpawn (fst x) (Some (snd x))) passed
              ++ ESpawn cmd ans :: tail
    ∧ Forall (λ x, returncode (snd x) = 0) passed
    ∧ map fst passed ++ [cmd] =
        take (S (length passed))
          [reorient_cmd input_image working_dir;
           trim_cmd working_dir;
           pad_cmd working_dir (pad_arg (default (py_int 10) pad_mm))]
    ∧ match ans with
      | None => e = OSError ∧ tail = []
      | Some r =>
          returncode r ≠ 0
          ∧ e = PipelineError ("Error running command: " +:+ join_args cmd)
          ∧ tail = failure_report cmd r
      end.
Proof.
  destruct st as [v w l]. intros Hv; simpl in Hv; subst v.
  script_paths.
  all: intros [= <- <-]; cbn [log].
  all: first
    [ exists []; do 3 eexists; quiet_raise_shape
    | eexists [(_, _)]; do 3 eexists; quiet_raise_shape
    | eexists [(_, _); (_, _)]; do 3 eexists; quiet_raise_shape ].
Qed.

(** X7. With the flag on, no exit status stops [trim_neck]: unless a
    child cannot be started, the call starts all three commands and
    returns the path of the trimmed image, whatever the children
    returned.  It never raises [PipelineError]. *)
Theorem trim_neck_verbose_ignores_status
    input_image working_dir pad_mm st res st' :
  __verbose__ st = true →
  trim_neck input_image working_dir pad_mm st = (res, st') →
  ∃ added,
    log st' = log st ++ added
    ∧ ((res = Ok (trimmed_path working_dir)
        ∧ commands added =
            [reorient_cmd input_image working_dir;
             trim_cmd working_dir;
             pad_cmd working_dir (pad_arg (default (py_int 10) pad_mm))])
       ∨ (res = Raise OSError
          ∧ ∃ cmd, last added = Some (ESpawn cmd None))).
Proof.
  destruct st as [v w l]. intros Hv; simpl in Hv; subst v.
  script_paths.
  all: intros [= <- <-]; cbn [log].
  all: eexists; split; [reflexivity|].
  all: first [left; split; reflexivity | right; split; [reflexivity|by eexists]].
Qed.

End TrimNeckOutcomes.

Section ExitStatus.
Context {os : OS}.

(** Once the command line is parsed, the process is [process]. *)
Lemma script_parsed args w : script (Parsed args) w = process args w.
Proof. reflexivity. Qed.

(** After the parser returned, the exit status is 0 or 1: 0 exactly when
    the last thing the run did is a copy, from the trimmed image of the
    scratch directory to the output path, that returned. *)
Lemma process_exit_status args w :
  let run := process args w in
  (fst run = 0
   ∧ ∃ tmp, last (log (snd run))
            = Some (ECopyfile (trimmed_path tmp) (output args) true))
  ∨ (fst run = 1
     ∧ ∀ src dst, ¬ In (ECopyfile src dst true) (log (snd run))).
Proof.
  cbv zeta. script_paths; cbn [fst snd log].
  all: first
    [ left; split; [reflexivity|]; eexists; reflexivity
    | right; split; [reflexivity|];
      intros src dst Hin; by_membership Hin ].
Qed.

(** After the parser returned, exit status 0 means that nothing went
    wrong anywhere. *)
Lemma process_status_zero args w st :
  process args w = (0, st) →
  Forall (uneventful args) (log st)
  ∧ (∃ tmp,
       commands (log st) =
         [probe_c3d; probe_trim_neck; reorient_cmd (input args) tmp;
          trim_cmd tmp; pad_cmd tmp "10x10x10mm"]
       ∧ In (EMkdtemp "t1wpreproc.tmpdir" (Some tmp)) (log st))
  ∧ Forall (λ e, ¬ console_only e) (log st).
Proof.
  script_paths.
  all: intros [= <-]; cbn [log].
  all: split;
    [repeat (constructor;
             [cbn [uneventful]; first [exact I | lia | congruence]|]);
     constructor|].
  all: split; [exists tmp; split; [reflexivity|cbn [In]; tauto]|].
  all: repeat (constructor; [cbn [console_only]; tauto|]); constructor.
Qed.

(** After the parser returned, the children are a prefix of the five
    commands, and the first probe is always among them. *)
Lemma process_children args w :
  let l := log (snd (process args w)) in
  ∃ k tmp,
    commands l =
      take k [probe_c3d; probe_trim_neck; reorient_cmd (input args) tmp;
              trim_cmd tmp; pad_cmd tmp "10x10x10mm"]
    ∧ (0 < k ≤ 5)%nat
    ∧ ((2 < k)%nat →
       In (EMkdtemp "t1wpreproc.tmpdir" (Some tmp)) l
       ∧ In (EExists (input args) true) l).
Proof.
  cbv zeta. script_paths; cbn [snd log].
  all: first
    [ exists 1%nat, ""; split; [reflexivity|]; split; [lia|]; intros; lia
    | exists 2%nat, ""; split; [reflexivity|]; split; [lia|]; intros; lia
    | exists 3%nat, tmp; split; [reflexivity|]; split; [lia|];
      intros _; cbn [In]; tauto
    | exists 4%nat, tmp; split; [reflexivity|]; split; [lia|];
      intros _; cbn [In]; tauto
    | exists 5%nat, tmp; split; [reflexivity|]; split; [lia|];
      intros _; cbn [In]; tauto ].
Qed.

(** X8. The exit status of the process is 0, 1 or 2.  When the parser
    rejects the command line it is 2, and when help is asked for it is 0:
    in both cases the parser's text is all the run wrote, and nothing was
    started, created or copied.  Once the options are parsed it is 0
    exactly when the last thing the run did is a copy, from the trimmed
    image of the scratch directory to the output path, that returned; in
    every other run it is 1 and no copy returned. *)
Theorem exit_status_tells_the_copy cl w :
  let run := script cl w in
  match cl with
  | Parsed args =>
      (fst run = 0
       ∧ ∃ tmp, last (log (snd run))
                = Some (ECopyfile (trimmed_path tmp) (output args) true))
      ∨ (fst run = 1
         ∧ ∀ src dst, ¬ In (ECopyfile src dst true) (log (snd run)))
  | HelpRequested text =>
      run = (0, {| __verbose__ := false; world := w; log := [EPrint text] |})
  | UsageError text =>
      run = (2, {| __verbose__ := false; world := w; log := [EPrint text] |})
  end.
Proof.
  cbv zeta. destruct cl as [args|text|text]; [|reflexivity|reflexivity].
  rewrite script_parsed. apply process_exit_status.
Qed.

(** X9. Exit status 0 means one of two things.  Either help was asked
    for: the help text is all the run wrote and the world is untouched.
    Or the options were parsed and nothing went wrong anywhere: every
    child was started and returned zero, every library call returned, the
    input was found, all five commands ran, in order, and the script
    wrote nothing to the console. *)
Theorem status_zero_means_uneventful cl w st :
  script cl w = (0, st) →
  (∃ text, cl = HelpRequested text
           ∧ log st = [EPrint text] ∧ world st = w)
  ∨ (∃ args, cl = Parsed args
       ∧ Forall (uneventful args) (log st)
       ∧ (∃ tmp,
            commands (log st) =
              [probe_c3d; probe_trim_neck; reorient_cmd (input args) tmp;
               trim_cmd tmp; pad_cmd tmp "10x10x10mm"]
            ∧ In (EMkdtemp "t1wpreproc.tmpdir" (Some tmp)) (log st))
       ∧ Forall (λ e, ¬ console_only e) (log st)).
Proof.
  destruct cl as [args|text|text].
  - rewrite script_parsed. intros Hp. right. exists args.
    split; [reflexivity|]. by apply process_status_zero with w.
  - intros [= <-]. left. by exists text.
  - intros [=].
Qed.

(** X10. The children of a run are a prefix of one fixed list of five
    commands: the two probes, then the three steps on the scratch
    directory that [tempfile.TemporaryDirectory] returned, with padding
    10.  No run starts a sixth child or changes the order.  The prefix
    is empty exactly when the parser ended the process, for help or for a
    command line it rejects, and the world is then untouched; once the
    options are parsed the first probe is always started. *)
Theorem children_are_a_prefix_of_five cl w :
  let l := log (snd (script cl w)) in
  match cl with
  | Parsed args =>
      ∃ k tmp,
        commands l =
          take k [probe_c3d; probe_trim_neck; reorient_cmd (input args) tmp;
                  trim_cmd tmp; pad_cmd tmp "10x10x10mm"]
        ∧ (0 < k ≤ 5)%nat
        ∧ ((2 < k)%nat →
           In (EMkdtemp "t1wpreproc.tmpdir" (Some tmp)) l
           ∧ In (EExists (input args) true) l)
  | HelpRequested _ | UsageError _ =>
      commands l = [] ∧ world (snd (script cl w)) = w
  end.
Proof.
  cbv zeta. destruct cl as [args|text|text]; [|by split|by split].
  rewrite script_parsed. apply process_children.
Qed.

End ExitStatus.

Section LibraryErrors.
Context {os : OS}.

(** Cases on which event of a known log satisfies a predicate. *)
Ltac exists_event H :=
  repeat match type of H with
         | Exists _ (_ :: _) => apply Exists_cons in H as [H|H]
         | Exists _ [] => apply Exists_nil in H; destruct H
         end;
  try (cbn in H; destruct H).

(** Checks that a proposed prefix is all that came before the call that
    raised. *)
Ltac raised_after_prefix :=
  eexists; split; [reflexivity|];
  split; [exact I|];
  repeat (constructor;
          [cbn [uneventful]; first [exact I | lia | congruence]|]);
  constructor.

(** X11. The script handles no error of the libraries it calls.  When a
    child cannot be started, or the creation of the scratch directory,
    [os.makedirs] or [shutil.copyfile] raises, that call is the last thing
    the run does: all went well before it, the interpreter reports the
    uncaught error, the exit status is 1, and the script itself has
    printed no line. *)
Theorem library_error_is_uncaught args w status st :
  process args w = (status, st) →
  Exists library_call_raised (log st) →
  status = 1
  ∧ (∃ pre e,
       log st = pre ++ [e; EUncaught OSError]
       ∧ library_call_raised e
       ∧ Forall (uneventful args) pre)
  ∧ (∀ line, ¬ In (EPrint line) (log st))
  ∧ ¬ In EPrintStack (log st).
Proof.
  script_paths.
  all: intros [= <- <-]; cbn [log]; intros HE.
  all: try (exfalso; exists_event HE; fail).
  all: clear HE; split; [reflexivity|].
  all: split;
    [|split; [intros line Hin|intros Hin]; by_membership Hin].
  all: first
    [ exists []; raised_after_prefix
    | eexists [_]; raised_after_prefix
    | eexists [_; _]; raised_after_prefix
    | eexists [_; _; _]; raised_after_prefix
    | eexists [_; _; _; _]; raised_after_prefix
    | eexists [_; _; _; _; _]; raised_after_prefix
    | eexists [_; _; _; _; _; _]; raised_after_prefix
    | eexists [_; _; _; _; _; _; _]; raised_after_prefix
    | eexists [_; _; _; _; _; _; _; _]; raised_after_prefix
    | eexists [_; _; _; _; _; _; _; _; _]; raised_after_prefix ].
Qed.

End LibraryErrors.

Section DirectoryAndCopy.
Context {os : OS}.

(** X12. [os.makedirs] is called at most once in a run, and only on the
    directory part of the output path, only when that part is not empty
    and its existence test answered false, and only after the input was
    found.  When the call raises, no step of the pipeline is started. *)
Theorem makedirs_only_for_missing_output_dir args w :
  let l := log (snd (process args w)) in
  let output_dir := os_path.dirname (output args) in
  made_dirs l = []
  ∨ ∃ ok,
      made_dirs l = [(output_dir, ok)]
      ∧ output_dir ≠ ""
      ∧ In (EExists output_dir false) l
      ∧ In (EExists (input args) true) l
      ∧ (ok = false →
         commands l = [probe_c3d; probe_trim_neck]
         ∧ fst (process args w) = 1).
Proof.
  cbv zeta. script_paths; cbn [fst snd log].
  all: first [left; reflexivity | right].
  all: eexists; split; [reflexivity|].
  all: split;
    [intros Heq; rewrite Heq in Hlen; discriminate Hlen|].
  all: split; [cbn [In]; tauto|].
  all: split; [cbn [In]; tauto|].
  all: first [intros Hok; discriminate Hok | intros _; by split].
Qed.

(** X13. [shutil.copyfile] is called at most once in a run: from the
    trimmed image of the scratch directory to the output path as given,
    after all five commands ran and each returned exit status zero. *)
Theorem copy_follows_five_zero_exits args w :
  let l := log (snd (process args w)) in
  copies l = []
  ∨ ∃ tmp ok,
      copies l = [(trimmed_path tmp, output args, ok)]
      ∧ In (EMkdtemp "t1wpreproc.tmpdir" (Some tmp)) l
      ∧ commands l =
          [probe_c3d; probe_trim_neck; reorient_cmd (input args) tmp;
           trim_cmd tmp; pad_cmd tmp "10x10x10mm"]
      ∧ Forall (λ x, ∃ r, snd x = Some r ∧ returncode r = 0) (spawned l).
Proof.
  cbv zeta. script_paths; cbn [fst snd log].
  all: first [left; reflexivity | right].
  all: exists tmp; eexists; split; [reflexivity|].
  all: split; [cbn [In]; tauto|].
  all: split; [reflexivity|].
  all: cbn [spawned];
    repeat (constructor; [eexists; split; [reflexivity|lia]|]); constructor.
Qed.

End DirectoryAndCopy.

Section LastWords.
Context {os : OS}.

(** Checks a proposed prefix of a log that ends with the report of a
    failed child and one more event. *)
Ltac ends_with_report :=
  eexists; split; [reflexivity|];
  split;
    [repeat (constructor;
             [cbn [uneventful]; first [exact I | lia | congruence]|]);
     constructor|];
  first
    [ left; by repeat split
    | right; left; by repeat split
    | right; right; split; [cbn; lia|reflexivity] ].

(** X14. What a run writes after a child that returned a non-zero status.
    All went well before that child; the four lines of the failure report
    follow it; then comes exactly one more event, which ends the run.
    For the first probe it is the line about [c3d], for the second probe
    the line about [trim_neck.sh]: [main] caught the error and exits.  For
    a step of the pipeline nothing catches the error: the interpreter
    reports the uncaught [PipelineError], which carries the command
    line. *)
Theorem failing_child_last_words args w status st cmd r :
  process args w = (status, st) →
  In (ESpawn cmd (Some r)) (log st) →
  returncode r ≠ 0 →
  ∃ pre final,
    log st = pre ++ ESpawn cmd (Some r) :: failure_report cmd r ++ [final]
    ∧ Forall (uneventful args) pre
    ∧ ((cmd = probe_c3d ∧ pre = []
        ∧ final = EPrint "Could not run c3d, check PATH")
       ∨ (cmd = probe_trim_neck ∧ commands pre = [probe_c3d]
          ∧ final = EPrint "Could not run trim_neck.sh, check PATH")
       ∨ ((2 ≤ length (commands pre))%nat
          ∧ final = EUncaught
                      (PipelineError
                         ("Error running command: " +:+ join_args cmd)))).
Proof.
  script_paths.
  all: intros [= <- <-]; cbn [log]; intros Hin Hne.
  all: by_membership Hin; try (exfalso; lia).
  all: unfold failure_report; cbn [app].
  all: first
    [ exists []; ends_with_report
    | eexists [_]; ends_with_report
    | eexists [_; _]; ends_with_report
    | eexists [_; _; _]; ends_with_report
    | eexists [_; _; _; _]; ends_with_report
    | eexists [_; _; _; _; _]; ends_with_report
    | eexists [_; _; _; _; _; _]; ends_with_report
    | eexists [_; _; _; _; _; _; _]; ends_with_report
    | eexists [_; _; _; _; _; _; _; _]; ends_with_report ].
Qed.

(** X15. The scratch directory is asked for at most once, with the suffix
    [t1wpreproc.tmpdir], and only after both probes were started and
    returned zero; it is asked for before the input is looked at, so a
    run with a missing input has created it all the same.  The input is
    the first path whose existence is tested. *)
Theorem scratch_dir_follows_the_probes args w suffix res :
  let l := log (snd (process args w)) in
  In (EMkdtemp suffix res) l →
  suffix = "t1wpreproc.tmpdir"
  ∧ ∃ r1 r2 rest,
      l = ESpawn probe_c3d (Some r1) :: ESpawn probe_trim_neck (Some r2)
          :: EMkdtemp suffix res :: rest
      ∧ returncode r1 = 0 ∧ returncode r2 = 0
      ∧ (∀ s a, ¬ In (EMkdtemp s a) rest)
      ∧ match res with
        | None => rest = [EUncaught OSError]
        | Some _ => ∃ b, head rest = Some (EExists (input args) b)
        end.
Proof.
  cbv zeta. script_paths; cbn [snd log].
  all: intros Hin; by_membership Hin.
  all: split; [reflexivity|].
  all: do 3 eexists; split; [reflexivity|].
  all: split; [lia|]; split; [lia|].
  all: split; [intros s a Hin; by_membership Hin|].
  all: first [reflexivity | by eexists].
Qed.

End LastWords.

(** ** The script on the small operating system *)

(** On the small system every path is an ordinary file location. *)
Lemma sim_regular dst w : regular_destination (os := Sim.sim) dst w.
Proof.
  intros src w'. simpl.
  unfold Sim.sim_copyfile, Sim.sim_read, Sim.file_at.
  destruct (Sim.fs w !! src) as [[c|]|] eqn:Hs; try done.
  case_bool_decide as Hne; [done|].
  assert (∀ m, m = <[dst := Sim.File c]> (Sim.fs w) →
               m !! src = Some (Sim.File c) ∧ m !! dst = Some (Sim.File c))
    as Hins.
  { intros m ->. by rewrite lookup_insert_ne, lookup_insert_eq. }
  destruct (Hins _ eq_refl) as [Hs' Hd'].
  destruct (Sim.fs w !! dst) as [[c'|]|]; try done;
    destruct (Sim.parent_ok dst (Sim.fs w)); try done;
    intros [= <-]; exists c; simpl; by rewrite Hs', Hd'.
Qed.

(** On the small system a directory that was made is there. *)
Lemma sim_makedirs_creates p w : makedirs_creates (os := Sim.sim) p w.
Proof.
  intros w'. simpl. unfold Sim.sim_makedirs, Sim.sim_exists.
  destruct (Sim.mkdirs _ p (Sim.fs w)) as [m|] eqn:Hm; [|done].
  intros [= <-]. simpl. apply bool_decide_eq_true.
  cbn [Sim.mkdirs] in Hm.
  repeat case_match; simplify_eq; rewrite lookup_insert_eq; eauto.
Qed.

(** On the small system with the flag on, a failing [c3d -h] returns the
    dictionary. *)
Lemma run_command_nonzero_exit_witness :
  let st := Sim.state_of true (Sim.machine (Some 0%nat)) in
  fst (subprocess_run (OS := Sim.sim) ["c3d"; "-h"] (world st))
    = Some (Sim.exit_with 1 "failed")
  ∧ fst (run_command ["c3d"; "-h"] st)
    = Ok {| cmd_str := "c3d -h"; res_stderr := "failed"; res_stdout := "" |}.
Proof.
  split; [reflexivity|].
  rewrite (run_command_nonzero_exit (os := Sim.sim) ["c3d"; "-h"] "c3d" ["-h"]
             (Sim.state_of true (Sim.machine (Some 0%nat)))
             (Sim.exit_with 1 "failed")
             (Sim.called (Sim.machine (Some 0%nat))));
    [reflexivity | reflexivity | reflexivity | simpl; lia].
Defined.

(** The trim step fails: the run ends there, with status 1 and no copy. *)
Lemma failure_is_fatal_witness :
  let run := process (os := Sim.sim) (Sim.args_into "trimmed.nii.gz")
               (Sim.machine (Some 3%nat)) in
  commands (take 6 (log (snd run)))
    = [probe_c3d; probe_trim_neck;
       reorient_cmd "/data/brain_native.nii.gz" "/tmp/tmpq8k2t1wpreproc.tmpdir";
       trim_cmd "/tmp/tmpq8k2t1wpreproc.tmpdir"]
  ∧ Forall console_only (drop 6 (log (snd run)))
  ∧ copies (log (snd run)) = []
  ∧ fst run = 1.
Proof.
  cbv zeta. split; [by vm_compute|].
  apply (failure_is_fatal (os := Sim.sim) (Sim.args_into "trimmed.nii.gz")
           (Sim.machine (Some 3%nat)) _ _
           (take 5 (log (snd (process (os := Sim.sim)
                                (Sim.args_into "trimmed.nii.gz")
                                (Sim.machine (Some 3%nat))))))
           (trim_cmd "/tmp/tmpq8k2t1wpreproc.tmpdir")
           (Sim.exit_with 1 "failed")).
  - apply surjective_pairing.
  - by vm_compute.
  - simpl. lia.
Defined.



(** The probe of [trim_neck.sh] returns 1: one message, status 1, no more. *)
Lemma precondition_failure_stops_witness :
  let args := Sim.args_into "trimmed.nii.gz" in
  let run := process (os := Sim.sim) args (Sim.machine (Some 1%nat)) in
  let said := EPrint "Could not run trim_neck.sh, check PATH" in
  In (ESpawn probe_trim_neck (Some (Sim.exit_with 1 "failed"))) (log (snd run))
  ∧ fst run = 1
  ∧ last (log (snd run)) = Some said
  ∧ console_only said
  ∧ (∀ cmd ans, In (ESpawn cmd ans) (log (snd run)) →
       cmd = probe_c3d ∨ cmd = probe_trim_neck)
  ∧ made_dirs (log (snd run)) = []
  ∧ copies (log (snd run)) = []
  ∧ ((∃ cmd w0, In cmd [probe_c3d; probe_trim_neck]
                ∧ world (snd run) = snd (subprocess_run cmd w0))
     ∨ (∃ w0, world (snd run)
              = snd (TemporaryDirectory "t1wpreproc.tmpdir" w0))).
Proof.
  cbv zeta.
  assert (In (ESpawn probe_trim_neck (Some (Sim.exit_with 1 "failed")))
            (log (snd (process (os := Sim.sim) (Sim.args_into "trimmed.nii.gz")
                         (Sim.machine (Some 1%nat)))))) as Hin.
  { vm_compute. auto. }
  split; [exact Hin|].
  apply (precondition_failure_stops (os := Sim.sim)
           (Sim.args_into "trimmed.nii.gz") (Sim.machine (Some 1%nat))
           _ _ _ (surjective_pairing _)).
  apply (trim_neck_probe_nonzero _ _ (Sim.exit_with 1 "failed"));
    [exact Hin | simpl; lia].
Defined.



(** The directory [out] is missing on disk and is there when the pipeline
    starts. *)
Lemma output_directory_is_created_witness :
  let args := Sim.args_into "out/trimmed.nii.gz" in
  let w := Sim.machine None in
  let run := process (os := Sim.sim) args w in
  reaches_pipeline (log (snd run))
  ∧ os_path.dirname (output args) = "out"
  ∧ path_exists "out" (world_at_tests (os := Sim.sim) w) = false
  ∧ ∃ w_dir tmp ans w_next pre post,
      makedirs "out" (world_at_tests (os := Sim.sim) w) = (true, w_dir)
      ∧ path_exists "out" w_dir = true
      ∧ subprocess_run (reorient_cmd (input args) tmp) w_dir = (ans, w_next)
      ∧ log (snd run) = pre ++ EMakedirs "out" true
                          :: ESpawn (reorient_cmd (input args) tmp) ans :: post
      ∧ commands pre = [probe_c3d; probe_trim_neck]
      ∧ copies pre = []
      ∧ made_dirs post = [].
Proof.
  cbv zeta.
  assert (reaches_pipeline
            (log (snd (process (os := Sim.sim)
                         (Sim.args_into "out/trimmed.nii.gz")
                         (Sim.machine None))))) as Hreach.
  { eexists (reorient_cmd "/data/brain_native.nii.gz"
               "/tmp/tmpq8k2t1wpreproc.tmpdir"), (Some (Sim.exit_with 0 "")).
    split; [vm_compute; auto 10 | reflexivity]. }
  assert (path_exists "out"
            (world_at_tests (os := Sim.sim) (Sim.machine None)) = false)
    as Hmissing.
  { vm_compute. reflexivity. }
  split; [exact Hreach|]. split; [reflexivity|]. split; [exact Hmissing|].
  apply (output_directory_is_created (os := Sim.sim)
           (Sim.args_into "out/trimmed.nii.gz") (Sim.machine None)
           _ _ (surjective_pairing _) Hreach).
  - intros Hd. discriminate Hd.
  - exact Hmissing.
  - apply sim_makedirs_creates.
Defined.


(** A bare output name: no directory is made, the copy goes to the name. *)
Lemma bare_output_name_makes_no_directory_witness :
  let args := Sim.args_into "trimmed.nii.gz" in
  let run := process (os := Sim.sim) args (Sim.machine None) in
  os_path.dirname (output args) = ""
  ∧ fst run = 0
  ∧ made_dirs (log (snd run)) = []
  ∧ (∀ p b, In (EExists p b) (log (snd run)) → p = input args)
  ∧ (∀ src dst ok, In (ECopyfile src dst ok) (log (snd run)) →
       dst = output args).
Proof.
  cbv zeta. split; [reflexivity|]. split; [reflexivity|].
  exact (bare_output_name_makes_no_directory (os := Sim.sim)
           (Sim.args_into "trimmed.nii.gz") (Sim.machine None)
           _ _ (surjective_pairing _) eq_refl).
Defined.

(** ** The further properties on the small operating system *)

(** With the flag on, [c3d -h] returning zero is echoed in eight events. *)
Lemma run_command_zero_exit_witness :
  let st := Sim.state_of true (Sim.machine None) in
  fst (subprocess_run (OS := Sim.sim) ["c3d"; "-h"] (world st))
    = Some (Sim.exit_with 0 "")
  ∧ fst (run_command ["c3d"; "-h"] st)
    = Ok {| cmd_str := "c3d -h"; res_stderr := ""; res_stdout := "" |}
  ∧ length (log (snd (run_command ["c3d"; "-h"] st))) = 8%nat.
Proof.
  split; [reflexivity|].
  rewrite (run_command_zero_exit (os := Sim.sim) ["c3d"; "-h"] "c3d" ["-h"]
             (Sim.state_of true (Sim.machine None))
             (Sim.exit_with 0 "")
             (Sim.called (Sim.machine None)));
    [split; reflexivity | reflexivity | reflexivity | reflexivity].
Defined.

(** The empty command with the flag on. *)
Lemma run_command_empty_verbose_witness :
  let st := Sim.state_of true (Sim.machine None) in
  __verbose__ st = true
  ∧ run_command [] st = (Raise IndexError, st).
Proof.
  split; [reflexivity|].
  exact (run_command_empty_verbose (os := Sim.sim)
           (Sim.state_of true (Sim.machine None)) eq_refl).
Defined.

(** [trim_neck.sh] is not on PATH: the probe cannot be started. *)
Lemma run_command_cannot_start_witness :
  let st := Sim.state_of false Sim.machine_without_trim_neck in
  fst (subprocess_run (OS := Sim.sim) ["trim_neck.sh"; "-h"] (world st)) = None
  ∧ fst (run_command ["trim_neck.sh"; "-h"] st) = Raise OSError
  ∧ log (snd (run_command ["trim_neck.sh"; "-h"] st))
    = [ESpawn ["trim_neck.sh"; "-h"] None].
Proof.
  split; [reflexivity|].
  rewrite (run_command_cannot_start (os := Sim.sim)
             ["trim_neck.sh"; "-h"] "trim_neck.sh" ["-h"]
             (Sim.state_of false Sim.machine_without_trim_neck)
             Sim.machine_without_trim_neck);
    [split; reflexivity | reflexivity | reflexivity].
Defined.

(** A quiet call that returns. *)
Lemma trim_neck_quiet_return_witness :
  let st := Sim.state_of false (Sim.machine None) in
  let run := trim_neck (os := Sim.sim) "/data/brain_native.nii.gz" "/tmp"
               None st in
  fst run = Ok "/tmp/T1wNeckTrim.nii.gz"
  ∧ "/tmp/T1wNeckTrim.nii.gz" = trimmed_path "/tmp"
  ∧ ∃ r1 r2 r3,
      log (snd run) = log st ++
        [ESpawn (reorient_cmd "/data/brain_native.nii.gz" "/tmp") (Some r1);
         ESpawn (trim_cmd "/tmp") (Some r2);
         ESpawn (pad_cmd "/tmp" (pad_arg (default (py_int 10) None))) (Some r3)]
      ∧ returncode r1 = 0 ∧ returncode r2 = 0 ∧ returncode r3 = 0.
Proof.
  cbv zeta.
  assert (fst (trim_neck (os := Sim.sim) "/data/brain_native.nii.gz" "/tmp"
                 None (Sim.state_of false (Sim.machine None)))
          = Ok "/tmp/T1wNeckTrim.nii.gz") as Hfst.
  { vm_compute. reflexivity. }
  split; [exact Hfst|].
  apply (trim_neck_quiet_return (os := Sim.sim)
           "/data/brain_native.nii.gz" "/tmp" None
           (Sim.state_of false (Sim.machine None))); [reflexivity|].
  rewrite <- Hfst. apply surjective_pairing.
Defined.

(** A quiet call whose trim step returns 1. *)
Lemma trim_neck_quiet_raise_witness :
  let st := Sim.state_of false (Sim.machine (Some 1%nat)) in
  let run := trim_neck (os := Sim.sim) "/data/brain_native.nii.gz" "/tmp"
               None st in
  let e := PipelineError
             ("Error running command: " +:+ join_args (trim_cmd "/tmp")) in
  fst run = Raise e
  ∧ ∃ passed cmd ans tail,
      log (snd run) = log st
                ++ map (λ x, ESpawn (fst x) (Some (snd x))) passed
                ++ ESpawn cmd ans :: tail
      ∧ Forall (λ x, returncode (snd x) = 0) passed
      ∧ map fst passed ++ [cmd] =
          take (S (length passed))
            [reorient_cmd "/data/brain_native.nii.gz" "/tmp";
             trim_cmd "/tmp";
             pad_cmd "/tmp" (pad_arg (default (py_int 10) None))]
      ∧ match ans with
        | None => e = OSError ∧ tail = []
        | Some r =>
            returncode r ≠ 0
            ∧ e = PipelineError ("Error running command: " +:+ join_args cmd)
            ∧ tail = failure_report cmd r
        end.
Proof.
  cbv zeta.
  assert (fst (trim_neck (os := Sim.sim) "/data/brain_native.nii.gz" "/tmp"
                 None (Sim.state_of false (Sim.machine (Some 1%nat))))
          = Raise (PipelineError
                     ("Error running command: "
                      +:+ join_args (trim_cmd "/tmp")))) as Hfst.
  { vm_compute. reflexivity. }
  split; [exact Hfst|].
  apply (trim_neck_quiet_raise (os := Sim.sim)
           "/data/brain_native.nii.gz" "/tmp" None
           (Sim.state_of false (Sim.machine (Some 1%nat)))); [reflexivity|].
  rewrite <- Hfst. apply surjective_pairing.
Defined.

(** With the flag on, a reorient step that returns 1 stops nothing. *)
Lemma trim_neck_verbose_ignores_status_witness :
  let st := Sim.state_of true (Sim.machine (Some 0%nat)) in
  let run := trim_neck (os := Sim.sim) "/data/brain_native.nii.gz" "/tmp"
               None st in
  In (ESpawn (reorient_cmd "/data/brain_native.nii.gz" "/tmp")
        (Some (Sim.exit_with 1 "failed"))) (log (snd run))
  ∧ fst run = Ok "/tmp/T1wNeckTrim.nii.gz"
  ∧ ∃ added,
      log (snd run) = log st ++ added
      ∧ ((fst run = Ok (trimmed_path "/tmp")
          ∧ commands added =
              [reorient_cmd "/data/brain_native.nii.gz" "/tmp";
               trim_cmd "/tmp";
               pad_cmd "/tmp" (pad_arg (default (py_int 10) None))])
         ∨ (fst run = Raise OSError
            ∧ ∃ cmd, last added = Some (ESpawn cmd None))).
Proof.
  cbv zeta. split; [vm_compute; auto|]. split; [by vm_compute|].
  exact (trim_neck_verbose_ignores_status (os := Sim.sim)
           "/data/brain_native.nii.gz" "/tmp" None
           (Sim.state_of true (Sim.machine (Some 0%nat)))
           _ _ eq_refl (surjective_pairing _)).
Defined.

(** A run that ends with status 0 after the options were parsed. *)
Lemma status_zero_means_uneventful_witness :
  let args := Sim.args_into "trimmed.nii.gz" in
  let cl := Parsed args in
  let run := script (os := Sim.sim) cl (Sim.machine None) in
  fst run = 0
  ∧ ((∃ text, cl = HelpRequested text
              ∧ log (snd run) = [EPrint text]
              ∧ world (snd run) = Sim.machine None)
     ∨ (∃ args', cl = Parsed args'
          ∧ Forall (uneventful args') (log (snd run))
          ∧ (∃ tmp,
               commands (log (snd run)) =
                 [probe_c3d; probe_trim_neck; reorient_cmd (input args') tmp;
                  trim_cmd tmp; pad_cmd tmp "10x10x10mm"]
               ∧ In (EMkdtemp "t1wpreproc.tmpdir" (Some tmp)) (log (snd run)))
          ∧ Forall (λ e, ¬ console_only e) (log (snd run)))).
Proof.
  cbv zeta.
  assert (fst (script (os := Sim.sim)
                 (Parsed (Sim.args_into "trimmed.nii.gz"))
                 (Sim.machine None)) = 0) as Hfst.
  { vm_compute. reflexivity. }
  split; [exact Hfst|].
  apply (status_zero_means_uneventful (os := Sim.sim)
           (Parsed (Sim.args_into "trimmed.nii.gz")) (Sim.machine None)).
  pose proof (surjective_pairing
                (script (os := Sim.sim)
                   (Parsed (Sim.args_into "trimmed.nii.gz"))
                   (Sim.machine None))) as Hp.
  rewrite Hfst in Hp. exact Hp.
Defined.

(** [trim_neck.sh] is not on PATH: the second probe cannot be started and
    the run ends with the interpreter's report. *)
Lemma library_error_is_uncaught_witness :
  let args := Sim.args_into "trimmed.nii.gz" in
  let run := process (os := Sim.sim) args Sim.machine_without_trim_neck in
  Exists library_call_raised (log (snd run))
  ∧ fst run = 1
  ∧ (∃ pre e,
       log (snd run) = pre ++ [e; EUncaught OSError]
       ∧ library_call_raised e
       ∧ Forall (uneventful args) pre)
  ∧ (∀ line, ¬ In (EPrint line) (log (snd run)))
  ∧ ¬ In EPrintStack (log (snd run)).
Proof.
  cbv zeta.
  assert (Exists library_call_raised
            (log (snd (process (os := Sim.sim)
                         (Sim.args_into "trimmed.nii.gz")
                         Sim.machine_without_trim_neck)))) as HE.
  { vm_compute. apply Exists_cons_tl, Exists_cons_hd. exact I. }
  split; [exact HE|].
  exact (library_error_is_uncaught (os := Sim.sim)
           (Sim.args_into "trimmed.nii.gz") Sim.machine_without_trim_neck
           _ _ (surjective_pairing _) HE).
Defined.

(** The trim step returns 1: its report, then the uncaught error. *)
Lemma failing_child_last_words_witness :
  let args := Sim.args_into "trimmed.nii.gz" in
  let run := process (os := Sim.sim) args (Sim.machine (Some 3%nat)) in
  let cmd := trim_cmd "/tmp/tmpq8k2t1wpreproc.tmpdir" in
  let r := Sim.exit_with 1 "failed" in
  In (ESpawn cmd (Some r)) (log (snd run))
  ∧ ∃ pre final,
      log (snd run)
        = pre ++ ESpawn cmd (Some r) :: failure_report cmd r ++ [final]
      ∧ Forall (uneventful args) pre
      ∧ ((cmd = probe_c3d ∧ pre = []
          ∧ final = EPrint "Could not run c3d, check PATH")
         ∨ (cmd = probe_trim_neck ∧ commands pre = [probe_c3d]
            ∧ final = EPrint "Could not run trim_neck.sh, check PATH")
         ∨ ((2 ≤ length (commands pre))%nat
            ∧ final = EUncaught
                        (PipelineError
                           ("Error running command: " +:+ join_args cmd)))).
Proof.
  cbv zeta.
  assert (In (ESpawn (trim_cmd "/tmp/tmpq8k2t1wpreproc.tmpdir")
                (Some (Sim.exit_with 1 "failed")))
            (log (snd (process (os := Sim.sim)
                         (Sim.args_into "trimmed.nii.gz")
                         (Sim.machine (Some 3%nat)))))) as Hin.
  { vm_compute. auto 10. }
  split; [exact Hin|].
  apply (failing_child_last_words (os := Sim.sim)
           (Sim.args_into "trimmed.nii.gz") (Sim.machine (Some 3%nat))
           _ _ _ _ (surjective_pairing _) Hin).
  simpl. lia.
Defined.

(** A missing input: the scratch directory was created all the same. *)
Lemma scratch_dir_follows_the_probes_witness :
  let args := {| input := "/data/missing.nii.gz";
                 output := "trimmed.nii.gz" |} in
  let l := log (snd (process (os := Sim.sim) args (Sim.machine None))) in
  let suffix := "t1wpreproc.tmpdir" in
  let res := Some "/tmp/tmpq8k2t1wpreproc.tmpdir" in
  In (EMkdtemp suffix res) l
  ∧ In (EExists (input args) false) l
  ∧ suffix = "t1wpreproc.tmpdir"
  ∧ ∃ r1 r2 rest,
      l = ESpawn probe_c3d (Some r1) :: ESpawn probe_trim_neck (Some r2)
          :: EMkdtemp suffix res :: rest
      ∧ returncode r1 = 0 ∧ returncode r2 = 0
      ∧ (∀ s a, ¬ In (EMkdtemp s a) rest)
      ∧ match res with
        | None => rest = [EUncaught OSError]
        | Some _ => ∃ b, head rest = Some (EExists (input args) b)
        end.
Proof.
  cbv zeta.
  assert (In (EMkdtemp "t1wpreproc.tmpdir"
                (Some "/tmp/tmpq8k2t1wpreproc.tmpdir"))
            (log (snd (process (os := Sim.sim)
                         {| input := "/data/missing.nii.gz";
                            output := "trimmed.nii.gz" |}
                         (Sim.machine None))))) as Hin.
  { vm_compute. auto 10. }
  split; [exact Hin|]. split; [vm_compute; auto 10|].
  exact (scratch_dir_follows_the_probes (os := Sim.sim)
           {| input := "/data/missing.nii.gz"; output := "trimmed.nii.gz" |}
           (Sim.machine None) _ _ Hin).
Defined.
